(** * The Friends dataset parser (nerfactory/datamanagers/dataparsers/friends_parser.py)

    A shallow embedding of [get_semantics_and_masks],
    [Friends._get_aabb_and_transform] and [Friends._generate_dataset_inputs],
    followed by the properties of these functions.

    Modelling choices.
    - Numbers held in tensors are exact rationals ([Qc], rationals in lowest
      terms, with Leibniz equality).  Every number of a JSON file is taken as
      a float, so that all tensors have one dtype.  The only arithmetic the
      parser performs is a product with a 0/1/-1 matrix, a division by 255
      and by 2 and equality tests, so rounding plays no part in what is
      proved here; NaN and infinities are outside the model.
    - The inner dimensions of a tensor are static ([vec]); the number of
      frames is dynamic (a [list]).  The JSON files are typed after the
      layout the parser indexes: a 3x3 [intrinsics], a 4x4 [camtoworld], a
      2x3 [bbox].
    - Python exceptions are values of [exn]; every function that can raise
      runs in the monad [IO], which also threads the log of the files that
      were opened.
    - The file system and the helpers imported from elsewhere in the package
      ([get_absolute_path], [load_from_json]) are part of a [World]. *)

From stdpp Require Import gmap strings list fin_maps vector numbers.
From Stdlib Require Import Ascii QArith Qcanon.

Open Scope Qc_scope.
Open Scope string_scope.
Open Scope list_scope.

(** ** Python values and control *)

Module Py.

(** The exceptions the parser can raise. *)
Inductive exn : Type :=
| FileNotFoundError (path : string)
| JSONDecodeError (path : string)
| UnidentifiedImageError (path : string)
| KeyError (key : string)
| IndexError
| ValueError (msg : string)
| RuntimeError (msg : string)
| AttributeError (msg : string)
| TypeError (msg : string)
| AssertionError (msg : string).

Inductive result (A : Type) : Type :=
| Ok (a : A)
| Raise (e : exn).
Arguments Ok {A} a.
Arguments Raise {A} e.

(** A computation takes the log of the files opened so far and returns a
    value or an exception, with the extended log. *)
Definition IO (A : Type) : Type := list string → result A * list string.

Definition ret {A} (a : A) : IO A := λ log, (Ok a, log).
Definition raise {A} (e : exn) : IO A := λ log, (Raise e, log).
Definition bind {A B} (m : IO A) (k : A → IO B) : IO B :=
  λ log, match m log with
         | (Ok a, log') => k a log'
         | (Raise e, log') => (Raise e, log')
         end.

(** [assert cond, msg] *)
Definition assert (cond : bool) (msg : string) : IO () :=
  if cond then ret () else raise (AssertionError msg).

(** An [option] turned into a value or the given exception. *)
Definition or_raise {A} (o : option A) (e : exn) : IO A :=
  match o with Some a => ret a | None => raise e end.

(** [l[i]] for a Python list: a negative index counts from the end. *)
Definition getitem {A} (l : list A) (i : Z) : option A :=
  if decide (0 ≤ i)%Z then l !! Z.to_nat i
  else if decide (- Z.of_nat (length l) ≤ i)%Z
       then l !! Z.to_nat (Z.of_nat (length l) + i)
       else None.

(** [l.index(x)]: the position of the first occurrence. *)
Fixpoint index (x : string) (l : list string) : option nat :=
  match l with
  | [] => None
  | y :: l' => if decide (x = y) then Some 0%nat else S <$> index x l'
  end.

(** [str.replace(old, new)]: every occurrence of [old], found from left to
    right without overlap, becomes [new].  [skip] counts the characters of
    a matched occurrence that are still to be dropped. *)
Fixpoint replace_from (old new s : string) (skip : nat) : string :=
  match s with
  | EmptyString => EmptyString
  | String c rest =>
      match skip with
      | S k => replace_from old new rest k
      | O =>
          if String.prefix old s
          then new +:+ replace_from old new rest (String.length old - 1)
          else String c (replace_from old new rest 0)
      end
  end.

Fixpoint intersperse_str (new s : string) : string :=
  match s with
  | EmptyString => new
  | String c rest => new +:+ String c (intersperse_str new rest)
  end.

Definition replace (s old new : string) : string :=
  match old with
  | EmptyString => intersperse_str new s
  | _ => replace_from old new s 0
  end.

End Py.

Import Py.

Notation "'do' x <- m ; k" := (bind m (λ x, k))
  (at level 10, x name, m at level 100, k at level 200).

(** ** pathlib.PurePosixPath *)

Module pathlib.

(** A path is its root ([""], ["/"] or ["//"]) and its components. *)
Record Path : Type := mkPath { root : string; parts : list string }.

Fixpoint lstrip_sep (s : string) : string :=
  match s with
  | String "/"%char rest => lstrip_sep rest
  | _ => s
  end.

(** [splitroot]: exactly two leading slashes are kept, any other number
    collapses to one. *)
Definition splitroot (part : string) : string * string :=
  match part with
  | String "/"%char _ =>
      let stripped := lstrip_sep part in
      if decide (String.length part - String.length stripped = 2)%nat
      then ("//", stripped) else ("/", stripped)
  | _ => ("", part)
  end.

(** [rel.split("/")], with [cur] the component being read. *)
Fixpoint split_sep (cur s : string) : list string :=
  match s with
  | EmptyString => [cur]
  | String "/"%char rest => cur :: split_sep "" rest
  | String c rest => split_sep (cur +:+ String c "") rest
  end.

Definition keep_part (x : string) : bool :=
  negb (bool_decide (x = "")) && negb (bool_decide (x = ".")).

(** [PurePosixPath(s)] *)
Definition of_str (s : string) : Path :=
  let '(r, rel) := splitroot s in
  mkPath r (List.filter keep_part (split_sep "" rel)).

Fixpoint join_sep (l : list string) : string :=
  match l with
  | [] => ""
  | [x] => x
  | x :: l' => x +:+ "/" +:+ join_sep l'
  end.

(** [str(p)] *)
Definition str (p : Path) : string :=
  match root p, parts p with
  | EmptyString, [] => "."
  | r, l => r +:+ join_sep l
  end.

(** [p / s]: an absolute right operand replaces the left one. *)
Definition joinpath (p : Path) (s : string) : Path :=
  let q := of_str s in
  match root q with
  | EmptyString => mkPath (root p) (parts p ++ parts q)
  | _ => q
  end.

End pathlib.

Import pathlib.

Notation "p // s" := (joinpath p s) (at level 40, left associativity).

(** ** Tensors *)

Abbreviation mat r c := (vec (vec Qc c) r).

Definition Qc_of_Z (z : Z) : Qc := Q2Qc (inject_Z z).

Module torch.

Definition dot {n} (u v : vec Qc n) : Qc :=
  foldr Qcplus 0 (vec_to_list (vzip_with Qcmult u v)).

Definition column {r c} (M : mat r c) (j : fin c) : vec Qc r :=
  vmap (λ row : vec Qc c, row !!! j) M.

(** [M.T] *)
Definition transpose {r c} (M : mat r c) : mat c r :=
  fun_to_vec (λ j, column M j).

(** [A @ B] *)
Definition matmul {n k m} (A : mat n k) (B : mat k m) : mat n m :=
  vmap (λ row : vec Qc k, fun_to_vec (λ j, dot row (column B j))) A.

(** [torch.stack]: an empty sequence is refused.  The tensors stacked by
    the parser have equal shapes by their types. *)
Definition stack {A} (l : list A) : IO (list A) :=
  match l with
  | [] => raise (RuntimeError "stack expects a non-empty TensorList")
  | _ => ret l
  end.

(** [torch.all(x == t)] for a scalar [x] and a 1-d tensor [t]. *)
Definition all_eq (x : Qc) (t : list Qc) : bool :=
  forallb (λ y, bool_decide (x = y)) t.

(** [numpy.reshape(4, 4)] of a flat sequence. *)
Definition reshape_4_4 (l : list Qc) : option (mat 4 4) :=
  match l with
  | [a0; a1; a2; a3; a4; a5; a6; a7; a8; a9; a10; a11; a12; a13; a14; a15] =>
      Some [# [# a0; a1; a2; a3]; [# a4; a5; a6; a7];
              [# a8; a9; a10; a11]; [# a12; a13; a14; a15]]
  | _ => None
  end.

End torch.

Import torch.

(** ** The files the parser reads *)

(** One entry of ["frames"] in cameras.json. *)
Record Frame : Type := {
  image_name : string;
  intrinsics : mat 3 3;
  camtoworld : mat 4 4
}.

Record CamerasJson : Type := {
  frames : list Frame;
  bbox : mat 2 3
}.

(** panoptic_classes.json *)
Record PanopticJson : Type := {
  stuff : list string;
  stuff_colors_json : list (vec Qc 3);
  thing : list string;
  thing_colors_json : list (vec Qc 3)
}.

(** threejs.json: [data["object"]["children"][i]["matrix"]] is a flat list
    of numbers, [data["geometries"][i]] has a width, a height and a depth. *)
Record ThreeNode : Type := { matrix : list Qc }.
Record ThreeGeometry : Type := { width : Qc; height : Qc; depth : Qc }.
Record ThreeJson : Type := {
  children : list ThreeNode;
  geometries : list ThreeGeometry
}.

Inductive Json : Type :=
| JCameras (c : CamerasJson)
| JPanoptic (p : PanopticJson)
| JThree (t : ThreeJson).

(** A label image is a height x width array of class indices. *)
Definition Image : Type := list (list Z).

Inductive File : Type :=
| JsonFile (j : Json)
| ImageFile (img : Image).

(** The surroundings of a call: the function of [nerfactory.utils.io] that
    makes a directory absolute, and the files by the string of their path. *)
Record World : Type := {
  get_absolute_path : Path → Path;
  files : gmap string File
}.

(** [filename.exists()] *)
Definition path_exists (w : World) (p : Path) : bool :=
  bool_decide (is_Some (files w !! str p)).

(** Opening a file is logged, whether it succeeds or not. *)
Definition open (w : World) (p : Path) : IO File :=
  λ log, (match files w !! str p with
          | Some f => Ok f
          | None => Raise (FileNotFoundError (str p))
          end, log ++ [str p]).

(** [load_from_json] of [nerfactory.utils.io]: open the file and decode it. *)
Definition load_from_json (w : World) (filename : Path) : IO Json :=
  do f <- open w filename;
  match f with
  | JsonFile j => ret j
  | ImageFile _ => raise (JSONDecodeError (str filename))
  end.

(** [Image.open] followed by [np.array(pil_image, dtype="int32")]. *)
Definition Image_open (w : World) (filename : Path) : IO Image :=
  do f <- open w filename;
  match f with
  | ImageFile img => ret img
  | JsonFile _ => raise (UnidentifiedImageError (str filename))
  end.

(** The first key looked up decides the [KeyError] on a JSON object of
    another layout. *)
Definition as_cameras (j : Json) : IO CamerasJson :=
  match j with JCameras c => ret c | _ => raise (KeyError "frames") end.
Definition as_panoptic (j : Json) : IO PanopticJson :=
  match j with JPanoptic p => ret p | _ => raise (KeyError "stuff") end.
Definition as_three (j : Json) : IO ThreeJson :=
  match j with JThree t => ret t | _ => raise (KeyError "object") end.

(** ** The structures of [nerfactory.datamanagers.structs] and
    [nerfactory.cameras.cameras], as the parser fills them *)

Record Semantics : Type := {
  stuff_classes : list string;
  stuff_colors : list (vec Qc 3);
  stuff_filenames : list Path;
  thing_classes : list string;
  thing_colors : list (vec Qc 3);
  thing_filenames : list Path
}.

Inductive CameraType : Type := PERSPECTIVE.

Record Cameras : Type := {
  fx : list Qc;
  fy : list Qc;
  cx : Qc;
  cy : Qc;
  camera_to_worlds : list (mat 3 4);
  camera_type : CameraType
}.

Record SceneBounds : Type := { aabb : mat 2 3 }.

(** The functions that can be registered under ["func"]. *)
Inductive Callable : Type := get_semantics_and_masks_fn.

Record AdditionalInput : Type := {
  func : Callable;
  kwargs : gmap string (option Semantics)
}.

Record DatasetInputs : Type := {
  image_filenames : list Path;
  cameras : Cameras;
  scene_bounds : SceneBounds;
  additional_inputs : gmap string AdditionalInput
}.

Record FriendsDataParserConfig : Type := {
  data_directory : Path;
  include_semantics : bool
}.

Record Friends : Type := { config : FriendsDataParserConfig }.

(** A tensor returned by the loader: float32 for the mask, int32 for the
    labels, both of shape height x width x 1. *)
Inductive Tensor3 : Type :=
| FloatTensor (t : list (list (list Qc)))
| IntTensor (t : list (list (list Z))).

(** ** get_semantics_and_masks *)

(** [t[..., None]]: a trailing axis of length one. *)
Definition unsqueeze_last {A} (t : list (list A)) : list (list (list A)) :=
  map (map (λ v, [v])) t.

(** [(t != k).to(torch.float32)] *)
Definition ne_mask (k : Z) (t : list (list (list Z))) : list (list (list Qc)) :=
  map (map (map (λ v : Z, if decide (v ≠ k) then 1 else 0))) t.

Definition get_semantics_and_masks (w : World) (image_idx : Z)
    (semantics : option Semantics) : IO (gmap string Tensor3) :=
  do semantics <- or_raise semantics
    (AttributeError "'NoneType' object has no attribute 'thing_classes'");
  do person_index <- or_raise (index "person" (thing_classes semantics))
    (ValueError "'person' is not in list");
  do thing_image_filename <-
    or_raise (getitem (thing_filenames semantics) image_idx) IndexError;
  do pil_image <- Image_open w thing_image_filename;
  let thing_semantics := unsqueeze_last pil_image in
  let mask := ne_mask (Z.of_nat person_index) thing_semantics in
  do stuff_image_filename <-
    or_raise (getitem (stuff_filenames semantics) image_idx) IndexError;
  do pil_image <- Image_open w stuff_image_filename;
  let stuff_semantics := unsqueeze_last pil_image in
  ret (<["mask" := FloatTensor mask]>
       (<["semantics" := IntTensor stuff_semantics]> ∅)).

(** [func(image_idx, **kwargs)] *)
Definition call (f : Callable) (w : World) (image_idx : Z)
    (kw : gmap string (option Semantics)) : IO (gmap string Tensor3) :=
  match f with
  | get_semantics_and_masks_fn =>
      do semantics <- or_raise (kw !! "semantics")
        (TypeError "missing 1 required positional argument: 'semantics'");
      get_semantics_and_masks w image_idx semantics
  end.

(** ** Friends._get_aabb_and_transform *)

Definition _get_aabb_and_transform (w : World) (basedir : Path)
    : IO (mat 2 3 * mat 4 4) :=
  let filename := basedir // "threejs.json" in
  do _ <- assert (path_exists w filename) "";
  do data <- load_from_json w filename;
  do data <- as_three data;
  (* point cloud transformation *)
  do node <- or_raise (children data !! 0%nat) IndexError;
  do reshaped <- or_raise (reshape_4_4 (matrix node))
    (ValueError "cannot reshape array into shape (4,4)");
  let transposed_point_cloud_transform := transpose reshaped in
  do _ <- assert
    (bool_decide ((transposed_point_cloud_transform !!! 3%fin) !!! 3%fin = 1)) "";
  (* bbox transformation *)
  do node <- or_raise (children data !! 1%nat) IndexError;
  do reshaped <- or_raise (reshape_4_4 (matrix node))
    (ValueError "cannot reshape array into shape (4,4)");
  let bbox_transform := transpose reshaped in
  do geometry <- or_raise (geometries data !! 1%nat) IndexError;
  let '(w_, h, d) := (width geometry, height geometry, depth geometry) in
  let temp : vec Qc 3 :=
    vmap (λ v, v / Qc_of_Z 2) [# w_; h; d] in
  let bbox : mat 2 3 := [# vmap Qcopp temp; temp] in
  let bbox : mat 2 4 := vmap (λ row : vec Qc 3, row +++ [# 1]) bbox in
  let bbox : mat 2 3 :=
    vmap (vtake 3%fin) (transpose (matmul bbox_transform (transpose bbox))) in
  let aabb := bbox in
  ret (aabb, transposed_point_cloud_transform).

(** ** Friends._generate_dataset_inputs *)

(** The six lists the loop over the frames appends to. *)
Definition Columns : Type :=
  list Path * list Qc * list Qc * list Qc * list Qc * list (mat 3 4).

Definition append_frame (abs_dir : Path) (acc : Columns) (frame : Frame)
    : Columns :=
  let '(image_filenames, fx, fy, cx, cy, camera_to_worlds) := acc in
  (* unpack data *)
  let image_filename := abs_dir // "images" // image_name frame in
  let intrinsics := intrinsics frame in
  let camtoworld : mat 3 4 := vtake 3%fin (camtoworld frame) in
  (* append data *)
  (image_filenames ++ [image_filename],
   fx ++ [(intrinsics !!! 0%fin) !!! 0%fin],
   fy ++ [(intrinsics !!! 1%fin) !!! 1%fin],
   cx ++ [(intrinsics !!! 0%fin) !!! 2%fin],
   cy ++ [(intrinsics !!! 1%fin) !!! 2%fin],
   camera_to_worlds ++ [camtoworld]).

Definition rotation : mat 3 3 :=
  [# [# 1; 0; 0]; [# 0; 0; - 1]; [# 0; 1; 0]].

Definition segmentation_filename (kind : string) (image_filename : Path)
    : Path :=
  of_str (replace (replace (str image_filename) "/images/" kind)
                  ".jpg" ".png").

Definition cx_message : string :=
  "Not all cameras have the same cx. Our Cameras class does not support this.".
Definition cy_message : string :=
  "Not all cameras have the same cy. Our Cameras class does not support this.".

Definition _generate_dataset_inputs (self : Friends) (w : World)
    (split : string) : IO DatasetInputs :=
  let abs_dir := get_absolute_path w (data_directory (config self)) in
  do cameras_json <- load_from_json w (abs_dir // "cameras.json");
  do cameras_json <- as_cameras cameras_json;
  let frames := frames cameras_json in
  let bbox := bbox cameras_json in
  let '(image_filenames, fx, fy, cx, cy, camera_to_worlds) :=
    foldl (append_frame abs_dir) ([], [], [], [], [], []) frames in
  do fx <- stack fx;
  do fy <- stack fy;
  do cx <- stack cx;
  do cy <- stack cy;
  do camera_to_worlds <- stack camera_to_worlds;
  (* rotate the cameras and box 90 degrees about the x axis to put the z
     axis up; [camera_to_worlds[:, :3]] is every 3x4 block, whole *)
  let camera_to_worlds := map (matmul rotation) camera_to_worlds in
  let bbox := transpose (matmul rotation (transpose bbox)) in
  (* set the bounding box *)
  let scene_bounds := {| aabb := bbox |} in
  (* semantics *)
  do semantics <-
    (if include_semantics (config self)
     then
       let thing_filenames :=
         map (segmentation_filename "/segmentations/thing/") image_filenames in
       let stuff_filenames :=
         map (segmentation_filename "/segmentations/stuff/") image_filenames in
       do panoptic_classes <-
         load_from_json w (abs_dir // "panoptic_classes.json");
       do panoptic_classes <- as_panoptic panoptic_classes;
       let stuff_classes := stuff panoptic_classes in
       let stuff_colors :=
         map (vmap (λ v, v / Qc_of_Z 255)) (stuff_colors_json panoptic_classes) in
       let thing_classes := thing panoptic_classes in
       let thing_colors :=
         map (vmap (λ v, v / Qc_of_Z 255)) (thing_colors_json panoptic_classes) in
       ret (Some {| stuff_classes := stuff_classes;
                    stuff_colors := stuff_colors;
                    stuff_filenames := stuff_filenames;
                    thing_classes := thing_classes;
                    thing_colors := thing_colors;
                    thing_filenames := thing_filenames |})
     else ret None);
  do cx0 <- or_raise (cx !! 0%nat) IndexError;
  do _ <- assert (all_eq cx0 cx) cx_message;
  do cy0 <- or_raise (cy !! 0%nat) IndexError;
  do _ <- assert (all_eq cy0 cy) cy_message;
  let cameras :=
    {| fx := fx; fy := fy; cx := cx0; cy := cy0;
       camera_to_worlds := camera_to_worlds;
       camera_type := PERSPECTIVE |} in
  let dataset_inputs :=
    {| image_filenames := image_filenames;
       cameras := cameras;
       scene_bounds := scene_bounds;
       additional_inputs :=
         {[ "semantics" :=
              {| func := get_semantics_and_masks_fn;
                 kwargs := {[ "semantics" := semantics ]} |} ]} |} in
  ret dataset_inputs.

(** ** Vocabulary of the statements *)

(** What the loop reads from one frame. *)
Definition image_path (abs_dir : Path) (frame : Frame) : Path :=
  abs_dir // "images" // image_name frame.
Definition fx_of (frame : Frame) : Qc := (intrinsics frame !!! 0%fin) !!! 0%fin.
Definition fy_of (frame : Frame) : Qc := (intrinsics frame !!! 1%fin) !!! 1%fin.
Definition cx_of (frame : Frame) : Qc := (intrinsics frame !!! 0%fin) !!! 2%fin.
Definition cy_of (frame : Frame) : Qc := (intrinsics frame !!! 1%fin) !!! 2%fin.
Definition top_rows (frame : Frame) : mat 3 4 := vtake 3%fin (camtoworld frame).

(** The quarter turn about the x axis, on a point:
    new_x = old_x, new_y = -old_z, new_z = old_y. *)
Definition rot_x (v : vec Qc 3) : vec Qc 3 :=
  [# v !!! 0%fin; - (v !!! 2%fin); v !!! 1%fin].

Definition abs_dir_of (self : Friends) (w : World) : Path :=
  get_absolute_path w (data_directory (config self)).
Definition cameras_path (self : Friends) (w : World) : Path :=
  abs_dir_of self w // "cameras.json".
Definition panoptic_path (self : Friends) (w : World) : Path :=
  abs_dir_of self w // "panoptic_classes.json".

(** The [Semantics] built from a taxonomy and the image paths. *)
Definition semantics_of (p : PanopticJson) (image_filenames : list Path)
    : Semantics :=
  {| stuff_classes := stuff p;
     stuff_colors := map (vmap (λ v, v / Qc_of_Z 255)) (stuff_colors_json p);
     stuff_filenames :=
       map (segmentation_filename "/segmentations/stuff/") image_filenames;
     thing_classes := thing p;
     thing_colors := map (vmap (λ v, v / Qc_of_Z 255)) (thing_colors_json p);
     thing_filenames :=
       map (segmentation_filename "/segmentations/thing/") image_filenames |}.

(** The part of [_generate_dataset_inputs] between the rotation and the two
    assertions. *)
Definition semantics_block (self : Friends) (w : World)
    (image_filenames : list Path) : IO (option Semantics) :=
  if include_semantics (config self) then
    do j <- load_from_json w (panoptic_path self w);
    do p <- as_panoptic j;
    ret (Some (semantics_of p image_filenames))
  else ret None.

(** The descriptor assembled at the end of [_generate_dataset_inputs]. *)
Definition descriptor_of (abs_dir : Path) (cj : CamerasJson) (cx0 cy0 : Qc)
    (semantics : option Semantics) : DatasetInputs :=
  {| image_filenames := map (image_path abs_dir) (frames cj);
     cameras :=
       {| fx := map fx_of (frames cj); fy := map fy_of (frames cj);
          cx := cx0; cy := cy0;
          camera_to_worlds :=
            map (λ f, matmul rotation (top_rows f)) (frames cj);
          camera_type := PERSPECTIVE |};
     scene_bounds :=
       {| aabb := transpose (matmul rotation (transpose (bbox cj))) |};
     additional_inputs :=
       {[ "semantics" :=
            {| func := get_semantics_and_masks_fn;
               kwargs := {[ "semantics" := semantics ]} |} ]} |}.


(** The descriptor carries no loader for the semantics. *)
Definition no_semantics_binding (d : DatasetInputs) : Prop :=
  additional_inputs d !! "semantics" = None.




(** ** Sample inputs *)

Module Sample.

Definition q (z : Z) : Qc := Qc_of_Z z.

(** A frame with principal point [(c, 240)], a skew entry [s] and a last
    row of the camera-to-world matrix that starts with [b]. *)
Definition frame (name : string) (c s b : Z) : Frame :=
  {| image_name := name;
     intrinsics := [# [# q 500; q s; q c];
                      [# q 0; q 600; q 240];
                      [# q 0; q 0; q 1]];
     camtoworld := [# [# q 1; q 0; q 0; q 0];
                      [# q 0; q 1; q 0; q 1];
                      [# q 0; q 0; q 1; q 0];
                      [# q b; q 0; q 0; q 1]] |}.

Definition box : mat 2 3 :=
  [# [# q (-1); q (-2); q (-3)]; [# q 1; q 2; q 3]].

Definition two_frames : CamerasJson :=
  {| frames := [frame "a.jpg" 320 0 0; frame "b.jpg" 320 0 0];
     bbox := box |}.
Definition mixed_cx : CamerasJson :=
  {| frames := [frame "a.jpg" 320 0 0; frame "b.jpg" 321 0 0];
     bbox := box |}.
Definition no_frames : CamerasJson := {| frames := []; bbox := box |}.

Definition classes : PanopticJson :=
  {| stuff := ["wall"; "floor"];
     stuff_colors_json := [[# q 255; q 0; q 0]; [# q 0; q 255; q 0]];
     thing := ["chair"; "person"];
     thing_colors_json := [[# q 0; q 0; q 255]; [# q 51; q 51; q 51]] |}.

Definition thing_a : Image := [[0; 1; 0]; [1; 1; 2]]%Z.
Definition stuff_a : Image := [[1; 1; 0]; [0; 0; 1]]%Z.

Definition world_of (cj : CamerasJson) : World :=
  {| get_absolute_path := λ p, p;
     files := {[ "/d/cameras.json" := JsonFile (JCameras cj) ]} |}.

Definition world_with_labels : World :=
  {| get_absolute_path := λ p, p;
     files :=
       <[ "/d/cameras.json" := JsonFile (JCameras two_frames) ]>
       (<[ "/d/panoptic_classes.json" := JsonFile (JPanoptic classes) ]>
       (<[ "/d/segmentations/thing/a.png" := ImageFile thing_a ]>
       (<[ "/d/segmentations/stuff/a.png" := ImageFile stuff_a ]> ∅))) |}.

Definition parser (sem : bool) : Friends :=
  {| config := {| data_directory := of_str "/d";
                  include_semantics := sem |} |}.

Definition identity_16 : list Qc :=
  [q 1; q 0; q 0; q 0; q 0; q 1; q 0; q 0;
   q 0; q 0; q 1; q 0; q 0; q 0; q 0; q 2].

Definition three : ThreeJson :=
  {| children := [ {| matrix := identity_16 |}; {| matrix := identity_16 |} ];
     geometries := [ {| width := q 1; height := q 1; depth := q 1 |};
                     {| width := q 2; height := q 4; depth := q 6 |} ] |}.

Definition world_three : World :=
  {| get_absolute_path := λ p, p;
     files := {[ "/d/threejs.json" := JsonFile (JThree three) ]} |}.

End Sample.

(** ** Further vocabulary and sample inputs *)

(** [u - v], component by component. *)
Definition vsub {n} (u v : vec Qc n) : vec Qc n := vzip_with Qcminus u v.

Module Fixture.

Definition q (z : Z) : Qc := Qc_of_Z z.

(** The files of [Sample.world_with_labels] and one more. *)
Definition world_with_notes : World :=
  {| get_absolute_path := λ p, p;
     files := <[ "/d/notes.json" := JsonFile (JPanoptic Sample.classes) ]>
              (files Sample.world_with_labels) |}.

(** A lower corner above the upper one in no coordinate. *)
Definition absolute_name : CamerasJson :=
  {| frames := [Sample.frame "a.jpg" 320 0 0;
                Sample.frame "/mnt/shots/b.jpg" 320 0 0];
     bbox := Sample.box |}.

Definition sem : Semantics :=
  semantics_of Sample.classes [of_str "/d/images/a.jpg"; of_str "/d/images/b.jpg"].

Definition sem_without_person : Semantics :=
  semantics_of {| stuff := ["wall"]; stuff_colors_json := [];
                  thing := ["chair"; "table"]; thing_colors_json := [] |}
               [of_str "/d/images/a.jpg"].

(** Labels for the last frame only. *)
Definition world_last_labels : World :=
  {| get_absolute_path := λ p, p;
     files := <[ "/d/segmentations/thing/b.png" := ImageFile Sample.thing_a ]>
              (<[ "/d/segmentations/stuff/b.png" := ImageFile Sample.stuff_a ]> ∅) |}.

(** A thing image without its stuff image. *)
Definition world_thing_only : World :=
  {| get_absolute_path := λ p, p;
     files := {[ "/d/segmentations/thing/a.png" := ImageFile Sample.thing_a ]} |}.

Definition identity_flat : list Qc :=
  [q 1; q 0; q 0; q 0; q 0; q 1; q 0; q 0;
   q 0; q 0; q 1; q 0; q 0; q 0; q 0; q 1].

(** Column-major: a scaling by 2 along x and the translation (1, 1, 1);
    [bottom] fills the entries 3, 7, 11 and 15. *)
Definition box_flat (bottom : Z) : list Qc :=
  [q 2; q 0; q 0; q bottom; q 0; q 1; q 0; q bottom;
   q 0; q 0; q 1; q bottom; q 1; q 1; q 1; q bottom].

Definition three (bottom : Z) : ThreeJson :=
  {| children := [ {| matrix := identity_flat |};
                   {| matrix := box_flat bottom |} ];
     geometries := [ {| width := q 1; height := q 1; depth := q 1 |};
                     {| width := q 2; height := q 4; depth := q 6 |} ] |}.

Definition three_short : ThreeJson :=
  {| children := [ {| matrix := [q 1; q 0; q 0] |} ];
     geometries := [] |}.

Definition world_three (t : ThreeJson) : World :=
  {| get_absolute_path := λ p, p;
     files := {[ "/d/threejs.json" := JsonFile (JThree t) ]} |}.

Definition no_files : World :=
  {| get_absolute_path := λ p, p; files := ∅ |}.

End Fixture.

(** The two corners computed by [_get_aabb_and_transform] from the reshaped
    matrix of the box node and the geometry of the box. *)
Definition box_of (reshaped : mat 4 4) (g : ThreeGeometry) : mat 2 3 :=
  let temp : vec Qc 3 :=
    vmap (λ v, v / Qc_of_Z 2) [# width g; height g; depth g] in
  let corners : mat 2 4 :=
    vmap (λ row : vec Qc 3, row +++ [# 1]) [# vmap Qcopp temp; temp] in
  vmap (vtake 3%fin)
       (transpose (matmul (transpose reshaped) (transpose corners))).

(** The path of threejs.json under a base directory. *)
Definition three_path (basedir : Path) : Path := basedir // "threejs.json".

(** ** The monad *)

Lemma bind_Ok {A B} (m : IO A) (k : A → IO B) log a log' :
  m log = (Ok a, log') → bind m k log = k a log'.
Proof. intros H. unfold bind. by rewrite H. Qed.

Lemma bind_Raise {A B} (m : IO A) (k : A → IO B) log e log' :
  m log = (Raise e, log') → bind m k log = (Raise e, log').
Proof. intros H. unfold bind. by rewrite H. Qed.

Lemma bind_Ok_inv {A B} (m : IO A) (k : A → IO B) log b log' :
  bind m k log = (Ok b, log') →
  ∃ a log1, m log = (Ok a, log1) ∧ k a log1 = (Ok b, log').
Proof.
  unfold bind. destruct (m log) as [[a|e] log1]; intros H.
  - by exists a, log1.
  - discriminate.
Qed.

Lemma assert_Ok_inv cond msg log u log' :
  assert cond msg log = (Ok u, log') → cond = true ∧ log' = log.
Proof. destruct cond; simpl; intros H; by inversion H. Qed.

Lemma or_raise_Ok_inv {A} (o : option A) e log a log' :
  or_raise o e log = (Ok a, log') → o = Some a ∧ log' = log.
Proof. destruct o; simpl; intros H; by inversion H. Qed.

(** ** str.replace *)

Lemma prefix_app (old s : string) : String.prefix old (old +:+ s) = true.
Proof.
  induction old as [|c old IH]; simpl; [by destruct s|].
  destruct (Ascii.ascii_dec c c); [exact IH | done].
Qed.

Lemma replace_from_skip old new (a s : string) :
  replace_from old new (a +:+ s) (String.length a) = replace_from old new s 0.
Proof. induction a as [|c a IH]; simpl; [by destruct s | exact IH]. Qed.

(** The three equations of a scan from left to right without overlap. *)
Lemma replace_empty c old new : replace "" (String c old) new = "".
Proof. reflexivity. Qed.

Lemma replace_match c old new s :
  replace (String c old +:+ s) (String c old) new =
  new +:+ replace s (String c old) new.
Proof.
  unfold replace.
  change (String c old +:+ s) with (String c (old +:+ s)).
  cbn [replace_from].
  change (String c (old +:+ s)) with (String c old +:+ s).
  rewrite prefix_app.
  assert (String.length (String c old) - 1 = String.length old)%nat as ->
    by (simpl; lia).
  by rewrite replace_from_skip.
Qed.

Lemma replace_no_match c0 old new c s :
  String.prefix (String c0 old) (String c s) = false →
  replace (String c s) (String c0 old) new =
  String c (replace s (String c0 old) new).
Proof. intros H. unfold replace. cbn [replace_from]. by rewrite H. Qed.

(** ** Lists and tensors *)

Lemma all_eq_true x l : all_eq x l = true ↔ Forall (λ y, x = y) l.
Proof.
  unfold all_eq. induction l as [|y l IH]; simpl.
  - split; [constructor | done].
  - split.
    + intros [Hx Hl]%andb_true_iff. constructor.
      * by apply bool_decide_eq_true in Hx.
      * by apply IH.
    + intros [Hx Hl]%Forall_cons_iff. apply andb_true_iff. split.
      * by apply bool_decide_eq_true.
      * by apply IH.
Qed.

Lemma all_eq_false x l : all_eq x l = false ↔ Exists (λ y, x ≠ y) l.
Proof.
  unfold all_eq. induction l as [|y l IH]; simpl.
  - split; [done | by intros H%Exists_nil].
  - rewrite andb_false_iff, Exists_cons, <- IH, bool_decide_eq_false. done.
Qed.

(** The loop computes six maps over the frames. *)
Lemma foldl_append_frame abs_dir l a b c d e f :
  foldl (append_frame abs_dir) (a, b, c, d, e, f) l =
  (a ++ map (image_path abs_dir) l, b ++ map fx_of l,
   c ++ map fy_of l, d ++ map cx_of l, e ++ map cy_of l,
   f ++ map top_rows l).
Proof.
  revert a b c d e f.
  induction l as [|fr l IH]; intros; simpl.
  - by rewrite !app_nil_r.
  - rewrite IH. by rewrite <- !app_assoc.
Qed.

(** The product with [rotation], row by row. *)
Lemma matmul_rotation_rows {m} (M : mat 3 m) :
  matmul rotation M = [# M !!! 0%fin; vmap Qcopp (M !!! 2%fin); M !!! 1%fin].
Proof.
  inv_vec M. intros r0 r1 r2. unfold matmul, rotation. simpl.
  f_equal; [|f_equal; [|f_equal]]; apply vec_eq; intros j;
    rewrite lookup_fun_to_vec, ?vlookup_map; unfold dot, column; simpl; ring.
Qed.

(** The product with [rotation], column by column. *)
Lemma column_matmul_rotation {m} (M : mat 3 m) (j : fin m) :
  column (matmul rotation M) j = rot_x (column M j).
Proof.
  rewrite matmul_rotation_rows. inv_vec M. intros r0 r1 r2.
  unfold column, rot_x. simpl. by rewrite vlookup_map.
Qed.

Lemma rotate_bbox {r} (B : mat r 3) :
  transpose (matmul rotation (transpose B)) = vmap rot_x B.
Proof.
  apply vec_eq. intros i. rewrite vlookup_map.
  unfold transpose at 1. rewrite lookup_fun_to_vec.
  rewrite column_matmul_rotation. f_equal.
  unfold transpose, column. apply vec_eq. intros j.
  by rewrite vlookup_map, lookup_fun_to_vec, vlookup_map.
Qed.

Lemma rot_x_up : rot_x [# 0; 1; 0] = [# 0; 0; 1].
Proof. unfold rot_x. simpl. by replace (- 0) with 0 by ring. Qed.

(** ** The shape of a run of [_generate_dataset_inputs] *)

Lemma semantics_block_disabled self w l log :
  include_semantics (config self) = false →
  semantics_block self w l log = (Ok None, log).
Proof. intros H. unfold semantics_block. by rewrite H. Qed.


Lemma semantics_block_Ok_inv self w l log s log' :
  semantics_block self w l log = (Ok s, log') →
  (include_semantics (config self) = false ∧ s = None ∧ log' = log) ∨
  (include_semantics (config self) = true ∧
   ∃ p, files w !! str (panoptic_path self w) = Some (JsonFile (JPanoptic p)) ∧
        s = Some (semantics_of p l) ∧
        log' = log ++ [str (panoptic_path self w)]).
Proof.
  unfold semantics_block, load_from_json, open, bind.
  destruct (include_semantics (config self)); [|intros H; inversion H; by left].
  destruct (files w !! str (panoptic_path self w)) as [[[c|p|t]|img]|];
    simpl; intros H; inversion H; subst.
  right. split; [done|]. by exists p.
Qed.


(** With a first frame, the run is the semantics block, the two assertions
    and the construction of the descriptor. *)
Lemma generate_unfold self w split log cj f0 rest :
  files w !! str (cameras_path self w) = Some (JsonFile (JCameras cj)) →
  frames cj = f0 :: rest →
  _generate_dataset_inputs self w split log =
  (do semantics <-
     semantics_block self w (map (image_path (abs_dir_of self w)) (frames cj));
   do _ <- assert (all_eq (cx_of f0) (map cx_of (frames cj))) cx_message;
   do _ <- assert (all_eq (cy_of f0) (map cy_of (frames cj))) cy_message;
   ret (descriptor_of (abs_dir_of self w) cj (cx_of f0) (cy_of f0) semantics))
  (log ++ [str (cameras_path self w)]).
Proof.
  intros Hfile Hfr.
  unfold _generate_dataset_inputs, semantics_block.
  cbv beta delta
    [bind load_from_json open ret raise as_cameras stack or_raise assert].
  fold (abs_dir_of self w). fold (cameras_path self w).
  fold (panoptic_path self w).
  rewrite Hfile. cbv beta iota.
  rewrite foldl_append_frame. cbn [app].
  unfold descriptor_of, semantics_of.
  rewrite Hfr. cbn [map lookup list_lookup].
  rewrite !map_map. reflexivity.
Qed.

(** Without frames the first [torch.stack] raises. *)
Lemma generate_no_frames self w split log cj :
  files w !! str (cameras_path self w) = Some (JsonFile (JCameras cj)) →
  frames cj = [] →
  _generate_dataset_inputs self w split log =
  (Raise (RuntimeError "stack expects a non-empty TensorList"),
   log ++ [str (cameras_path self w)]).
Proof.
  intros Hfile Hfr.
  unfold _generate_dataset_inputs.
  cbv beta delta
    [bind load_from_json open ret raise as_cameras stack or_raise assert].
  fold (abs_dir_of self w). fold (cameras_path self w).
  rewrite Hfile. cbv beta iota.
  rewrite Hfr. reflexivity.
Qed.

(** A run that does not find a cameras object raises. *)
Lemma generate_no_cameras self w split log :
  (∀ cj, files w !! str (cameras_path self w) ≠ Some (JsonFile (JCameras cj))) →
  ∃ e, _generate_dataset_inputs self w split log =
       (Raise e, log ++ [str (cameras_path self w)]) ∧
       ∀ msg, e ≠ AssertionError msg.
Proof.
  intros Hfile.
  unfold _generate_dataset_inputs.
  cbv beta delta
    [bind load_from_json open ret raise as_cameras stack or_raise assert].
  fold (abs_dir_of self w). fold (cameras_path self w).
  destruct (files w !! str (cameras_path self w)) as [[[c|p|t]|img]|];
    cbv beta iota; try (eexists; split; [reflexivity|done]).
  by destruct (Hfile c).
Qed.

(** What a successful run returns. *)
Lemma generate_Ok_inv self w split log d log' :
  _generate_dataset_inputs self w split log = (Ok d, log') →
  ∃ cj f0 rest sem,
    files w !! str (cameras_path self w) = Some (JsonFile (JCameras cj)) ∧
    frames cj = f0 :: rest ∧
    semantics_block self w (map (image_path (abs_dir_of self w)) (frames cj))
      (log ++ [str (cameras_path self w)]) = (Ok sem, log') ∧
    Forall (λ f, cx_of f = cx_of f0) (frames cj) ∧
    Forall (λ f, cy_of f = cy_of f0) (frames cj) ∧
    d = descriptor_of (abs_dir_of self w) cj (cx_of f0) (cy_of f0) sem.
Proof.
  intros Hrun.
  destruct (files w !! str (cameras_path self w)) as [[[cj|p|t]|img]|] eqn:Hfile;
    try (destruct (generate_no_cameras self w split log) as (e & He & _);
         [intros cj'; rewrite Hfile; discriminate | congruence]).
  destruct (frames cj) as [|f0 rest] eqn:Hfr.
  { rewrite (generate_no_frames _ _ _ _ cj) in Hrun by done. discriminate. }
  rewrite (generate_unfold _ _ _ _ cj f0 rest) in Hrun by done.
  apply bind_Ok_inv in Hrun as (sem & log1 & Hsem & Hrun).
  apply bind_Ok_inv in Hrun as (u1 & log2 & Hcx & Hrun).
  apply bind_Ok_inv in Hrun as (u2 & log3 & Hcy & Hrun).
  apply assert_Ok_inv in Hcx as [Hcx ->].
  apply assert_Ok_inv in Hcy as [Hcy ->].
  inversion Hrun; subst.
  exists cj, f0, rest, sem. rewrite Hfr in *.
  repeat split; try done.
  - apply all_eq_true in Hcx. rewrite Forall_map in Hcx.
    eapply Forall_impl; [|exact Hcx]. intros f Hf. by symmetry.
  - apply all_eq_true in Hcy. rewrite Forall_map in Hcy.
    eapply Forall_impl; [|exact Hcy]. intros f Hf. by symmetry.
Qed.

Lemma lookup_map {A B} (f : A → B) (l : list A) (i : nat) :
  map f l !! i = f <$> l !! i.
Proof.
  revert i. induction l as [|a l IH]; intros [|i]; simpl; done.
Qed.

Lemma descriptor_binding abs_dir cj cx0 cy0 sem :
  additional_inputs (descriptor_of abs_dir cj cx0 cy0 sem) !! "semantics" =
  Some {| func := get_semantics_and_masks_fn;
          kwargs := {[ "semantics" := sem ]} |}.
Proof. unfold descriptor_of. simpl. apply lookup_singleton_eq. Qed.

(** ** Order and length of the columns *)

(** C4: for a cameras.json with N frames, a returned descriptor has N values
    of fx, of fy and of camera-to-world transforms and N image paths; the
    i-th of each comes from the i-th frame of the file, and the i-th image
    path is the data directory joined with "images" and the i-th frame's
    file name. *)
Theorem frames_in_order self w split log d log' cj :
  files w !! str (cameras_path self w) = Some (JsonFile (JCameras cj)) →
  _generate_dataset_inputs self w split log = (Ok d, log') →
  length (fx (cameras d)) = length (frames cj) ∧
  length (fy (cameras d)) = length (frames cj) ∧
  length (camera_to_worlds (cameras d)) = length (frames cj) ∧
  length (image_filenames d) = length (frames cj) ∧
  ∀ i frame, frames cj !! i = Some frame →
    fx (cameras d) !! i = Some ((intrinsics frame !!! 0%fin) !!! 0%fin) ∧
    fy (cameras d) !! i = Some ((intrinsics frame !!! 1%fin) !!! 1%fin) ∧
    camera_to_worlds (cameras d) !! i =
      Some (matmul rotation (top_rows frame)) ∧
    image_filenames d !! i =
      Some (get_absolute_path w (data_directory (config self))
              // "images" // image_name frame).
Proof.
  intros Hfile Hrun.
  apply generate_Ok_inv in Hrun as (cj' & f0 & rest & sem & Hfile' & _ & _ & _ & _ & ->).
  assert (cj' = cj) as -> by congruence.
  unfold descriptor_of. simpl. rewrite !length_map.
  repeat split; try done.
  all: rewrite lookup_map, H; done.
Qed.

Lemma frames_in_order_witness :
  ∃ d, fst (_generate_dataset_inputs (Sample.parser false)
              (Sample.world_of Sample.two_frames) "train" []) = Ok d ∧
       length (fx (cameras d)) = 2%nat ∧
       image_filenames d !! 1%nat = Some (of_str "/d/images/b.jpg").
Proof.
  destruct (_generate_dataset_inputs (Sample.parser false)
              (Sample.world_of Sample.two_frames) "train" [])
    as [[d|e] log'] eqn:Hrun; [|by vm_compute in Hrun].
  exists d. split; [done|].
  destruct (frames_in_order (Sample.parser false)
              (Sample.world_of Sample.two_frames) "train" [] d log'
              Sample.two_frames) as (Hfx & _ & _ & _ & Hi); [done | done |].
  split; [exact Hfx|].
  destruct (Hi 1%nat (Sample.frame "b.jpg" 320 0 0)) as (_ & _ & _ & Hp); [done|].
  exact Hp.
Defined.

(** ** The rotation *)

(** C2: in a returned descriptor every camera-to-world block and every corner
    of the bounding box of cameras.json has been turned by the fixed quarter
    turn about the x axis, new_x = old_x, new_y = -old_z, new_z = old_y; a
    block whose translation column is (0,1,0) gets the translation (0,0,1). *)
Theorem rotation_is_quarter_turn_about_x self w split log d log' cj :
  files w !! str (cameras_path self w) = Some (JsonFile (JCameras cj)) →
  _generate_dataset_inputs self w split log = (Ok d, log') →
  (∀ i frame, frames cj !! i = Some frame →
     ∃ M, camera_to_worlds (cameras d) !! i = Some M ∧
          (∀ j : fin 4,
             column M j = rot_x (column (top_rows frame) j)) ∧
          (column (top_rows frame) 3%fin = [# 0; 1; 0] →
           column M 3%fin = [# 0; 0; 1])) ∧
  (∀ k : fin 2, aabb (scene_bounds d) !!! k = rot_x (bbox cj !!! k)).
Proof.
  intros Hfile Hrun.
  apply generate_Ok_inv in Hrun as (cj' & f0 & rest & sem & Hfile' & _ & _ & _ & _ & ->).
  assert (cj' = cj) as -> by congruence.
  unfold descriptor_of.
  cbn [cameras camera_to_worlds scene_bounds aabb]. split.
  - intros i frame Hi. eexists. split; [by rewrite lookup_map, Hi|].
    cbn [fmap option_fmap option_map]. split.
    + intros j. apply column_matmul_rotation.
    + intros Ht. rewrite column_matmul_rotation.
      rewrite Ht. apply rot_x_up.
  - intros k. by rewrite rotate_bbox, vlookup_map.
Qed.

Lemma rotation_is_quarter_turn_about_x_witness :
  ∃ d M, fst (_generate_dataset_inputs (Sample.parser false)
                (Sample.world_of Sample.two_frames) "train" []) = Ok d ∧
         camera_to_worlds (cameras d) !! 0%nat = Some M ∧
         column M 3%fin = [# 0; 0; 1] ∧
         aabb (scene_bounds d) !!! 0%fin = rot_x (Sample.box !!! 0%fin).
Proof.
  destruct (_generate_dataset_inputs (Sample.parser false)
              (Sample.world_of Sample.two_frames) "train" [])
    as [[d|e] log'] eqn:Hrun; [|by vm_compute in Hrun].
  destruct (rotation_is_quarter_turn_about_x (Sample.parser false)
              (Sample.world_of Sample.two_frames) "train" [] d log'
              Sample.two_frames) as (Hc & Hb); [done | done |].
  destruct (Hc 0%nat (Sample.frame "a.jpg" 320 0 0)) as (M & HM & _ & Hup);
    [done|].
  exists d, M. split; [done|]. split; [exact HM|]. split.
  - apply Hup. vm_compute. reflexivity.
  - apply (Hb 0%fin).
Defined.

(** ** Paths of the segmentation files *)

(** C7: with semantics enabled, the thing and stuff file paths of a returned
    descriptor are, frame by frame and in the order of the image paths, the
    image path with "/images/" replaced by "/segmentations/thing/"
    (resp. "/segmentations/stuff/") and ".jpg" replaced by ".png". *)
Theorem segmentation_paths_aligned self w split log d log' :
  include_semantics (config self) = true →
  _generate_dataset_inputs self w split log = (Ok d, log') →
  ∃ ai sem,
    additional_inputs d !! "semantics" = Some ai ∧
    kwargs ai !! "semantics" = Some (Some sem) ∧
    length (thing_filenames sem) = length (image_filenames d) ∧
    length (stuff_filenames sem) = length (image_filenames d) ∧
    ∀ i image_filename, image_filenames d !! i = Some image_filename →
      thing_filenames sem !! i =
        Some (of_str (replace (replace (str image_filename)
                                 "/images/" "/segmentations/thing/")
                        ".jpg" ".png")) ∧
      stuff_filenames sem !! i =
        Some (of_str (replace (replace (str image_filename)
                                 "/images/" "/segmentations/stuff/")
                        ".jpg" ".png")).
Proof.
  intros Hsem Hrun.
  apply generate_Ok_inv in Hrun as (cj & f0 & rest & sem & _ & _ & Hblock & _ & _ & ->).
  apply semantics_block_Ok_inv in Hblock as [[Hoff _]|[_ (p & _ & -> & _)]];
    [congruence|].
  eexists _, _. split; [apply descriptor_binding|].
  split; [apply lookup_singleton_eq|].
  unfold semantics_of, descriptor_of. simpl. rewrite !length_map.
  repeat split; try done.
  all: rewrite lookup_map, H; done.
Qed.

Lemma segmentation_paths_aligned_witness :
  ∃ d ai sem,
    fst (_generate_dataset_inputs (Sample.parser true)
           Sample.world_with_labels "train" []) = Ok d ∧
    additional_inputs d !! "semantics" = Some ai ∧
    kwargs ai !! "semantics" = Some (Some sem) ∧
    thing_filenames sem !! 0%nat =
      Some (of_str "/d/segmentations/thing/a.png").
Proof.
  destruct (_generate_dataset_inputs (Sample.parser true)
              Sample.world_with_labels "train" [])
    as [[d|e] log'] eqn:Hrun; [|by vm_compute in Hrun].
  destruct (segmentation_paths_aligned (Sample.parser true)
              Sample.world_with_labels "train" [] d log')
    as (ai & sem & Hai & Hkw & _ & _ & Hi); [done | done |].
  exists d, ai, sem. repeat split; try done.
  assert (image_filenames d !! 0%nat = Some (of_str "/d/images/a.jpg")) as H0.
  { vm_compute in Hrun. by inversion Hrun. }
  destruct (Hi 0%nat _ H0) as [Ht _]. exact Ht.
Defined.

(** ** No frames *)

(** C9: on a cameras.json whose list of frames is empty, the run raises the
    error of stacking an empty sequence and returns no descriptor. *)
Theorem empty_frames_raise self w split log cj :
  files w !! str (cameras_path self w) = Some (JsonFile (JCameras cj)) →
  frames cj = [] →
  fst (_generate_dataset_inputs self w split log) =
  Raise (RuntimeError "stack expects a non-empty TensorList").
Proof.
  intros Hfile Hfr. by rewrite (generate_no_frames self w split log cj).
Qed.

Lemma empty_frames_raise_witness :
  fst (_generate_dataset_inputs (Sample.parser false)
         (Sample.world_of Sample.no_frames) "train" []) =
  Raise (RuntimeError "stack expects a non-empty TensorList").
Proof.
  apply (empty_frames_raise (Sample.parser false)
           (Sample.world_of Sample.no_frames) "train" [] Sample.no_frames).
  - vm_compute. reflexivity.
  - reflexivity.
Defined.

(** ** The split *)

(** C10: the split given to [_generate_dataset_inputs] does not influence
    the run: two splits give the same result and the same file accesses. *)
Theorem split_is_ignored self w (split1 split2 : string) log :
  _generate_dataset_inputs self w split1 log =
  _generate_dataset_inputs self w split2 log.
Proof. reflexivity. Qed.

(** ** What is read from a frame *)




(** ** The check of the principal point *)






(** ** The geometry loader *)

(** C6: on a threejs.json whose point-cloud transform, reshaped to 4x4 and
    transposed, has an entry [3,3] other than 1, [_get_aabb_and_transform]
    raises an assertion error and returns no transform. *)
Theorem homogeneous_entry_asserted w basedir log t node reshaped :
  files w !! str (basedir // "threejs.json") = Some (JsonFile (JThree t)) →
  children t !! 0%nat = Some node →
  reshape_4_4 (matrix node) = Some reshaped →
  (transpose reshaped !!! 3%fin) !!! 3%fin ≠ 1 →
  fst (_get_aabb_and_transform w basedir log) = Raise (AssertionError "").
Proof.
  intros Hfile Hnode Hshape Hne.
  unfold _get_aabb_and_transform, path_exists.
  cbv beta delta [bind load_from_json open ret raise as_three or_raise assert].
  cbv zeta. rewrite Hfile.
  rewrite bool_decide_eq_true_2 by by eexists.
  cbv beta iota. rewrite Hnode. cbv beta iota.
  rewrite Hshape. cbv beta iota.
  by rewrite bool_decide_eq_false_2.
Qed.

Lemma homogeneous_entry_asserted_witness :
  fst (_get_aabb_and_transform Sample.world_three (of_str "/d") []) =
  Raise (AssertionError "").
Proof.
  eapply (homogeneous_entry_asserted Sample.world_three (of_str "/d") []
            Sample.three).
  - vm_compute. reflexivity.
  - reflexivity.
  - reflexivity.
  - intros H. vm_compute in H. discriminate.
Defined.

(** ** The loader of masks and labels *)









(** ** Semantics disabled *)

(** With semantics disabled the only file opened is cameras.json, whatever
    the outcome. *)
Lemma disabled_semantics_reads_only_cameras self w split log :
  include_semantics (config self) = false →
  snd (_generate_dataset_inputs self w split log) =
  log ++ [str (cameras_path self w)].
Proof.
  intros Hoff.
  destruct (files w !! str (cameras_path self w)) as [[[cj|p|t]|img]|] eqn:Hfile;
    try (destruct (generate_no_cameras self w split log) as (e & -> & _);
         [intros cj'; rewrite Hfile; discriminate | done]).
  destruct (frames cj) as [|f0 rest] eqn:Hfr.
  { by rewrite (generate_no_frames _ _ _ _ cj). }
  rewrite (generate_unfold _ _ _ _ cj f0 rest) by done.
  unfold bind. rewrite semantics_block_disabled by done.
  unfold assert, ret, raise.
  by destruct (all_eq (cx_of f0) (map cx_of (frames cj))),
              (all_eq (cy_of f0) (map cy_of (frames cj))).
Qed.

(** With semantics disabled a returned descriptor still registers the loader,
    with [None] as the captured semantics. *)
Lemma disabled_semantics_binding self w split log d log' :
  include_semantics (config self) = false →
  _generate_dataset_inputs self w split log = (Ok d, log') →
  additional_inputs d !! "semantics" =
  Some {| func := get_semantics_and_masks_fn;
          kwargs := {[ "semantics" := None ]} |}.
Proof.
  intros Hoff Hrun.
  apply generate_Ok_inv in Hrun
    as (cj & f0 & rest & sem & _ & _ & Hblock & _ & _ & ->).
  rewrite semantics_block_disabled in Hblock by done.
  injection Hblock as <- _. apply descriptor_binding.
Qed.

(** The loader called with [None] as semantics raises. *)
Lemma loader_without_semantics_raises w i log :
  call get_semantics_and_masks_fn w i {[ "semantics" := None ]} log =
  (Raise (AttributeError
            "'NoneType' object has no attribute 'thing_classes'"), log).
Proof.
  unfold call, bind. by rewrite lookup_singleton_eq.
Qed.

(** C1: the code on an input with semantics disabled.  The run opens
    cameras.json only and returns a descriptor, but the descriptor does bind
    the semantics loader, to [None] as its semantics, against the claim that
    it has no such binding; calling the bound loader raises. *)
Theorem disabled_semantics_still_binds_loader :
  include_semantics (config (Sample.parser false)) = false ∧
  ∃ d ai,
    _generate_dataset_inputs (Sample.parser false)
      (Sample.world_of Sample.two_frames) "train" [] =
      (Ok d, ["/d/cameras.json"]) ∧
    additional_inputs d !! "semantics" = Some ai ∧
    ¬ no_semantics_binding d ∧
    func ai = get_semantics_and_masks_fn ∧
    kwargs ai !! "semantics" = Some None ∧
    ∀ w i log,
      fst (call (func ai) w i (kwargs ai) log) =
      Raise (AttributeError
               "'NoneType' object has no attribute 'thing_classes'").
Proof.
  split; [done|].
  destruct (_generate_dataset_inputs (Sample.parser false)
              (Sample.world_of Sample.two_frames) "train" [])
    as [[d|e] log'] eqn:Hrun; [|by vm_compute in Hrun].
  pose proof (disabled_semantics_binding (Sample.parser false)
                (Sample.world_of Sample.two_frames) "train" [] d log'
                eq_refl Hrun) as Hai.
  pose proof (disabled_semantics_reads_only_cameras (Sample.parser false)
                (Sample.world_of Sample.two_frames) "train" [] eq_refl) as Hlog.
  rewrite Hrun in Hlog. simpl in Hlog. subst log'.
  eexists d, _. split; [reflexivity|]. split; [exact Hai|].
  split; [unfold no_semantics_binding; by rewrite Hai|].
  split; [done|]. split; [apply lookup_singleton_eq|].
  intros w i log. cbn [func kwargs].
  by rewrite loader_without_semantics_raises.
Qed.

(** ** Success *)


(** ** Strings and paths on examples *)

Example replace_every_occurrence :
  replace "/data/images/x/images/a.jpg" "/images/" "/segmentations/thing/" =
  "/data/segmentations/thing/x/segmentations/thing/a.jpg".
Proof. reflexivity. Qed.

Example replace_without_overlap : replace "aaa" "aa" "b" = "ba".
Proof. reflexivity. Qed.

Example joinpath_relative :
  str (of_str "/data/friends" // "images" // "frame_0001.jpg") =
  "/data/friends/images/frame_0001.jpg".
Proof. reflexivity. Qed.

Example joinpath_absolute :
  str (of_str "/data/friends" // "images" // "/tmp/frame_0001.jpg") =
  "/tmp/frame_0001.jpg".
Proof. reflexivity. Qed.

Example segmentation_filename_stuff :
  str (segmentation_filename "/segmentations/stuff/"
         (of_str "/data/friends/images/frame_0001.jpg")) =
  "/data/friends/segmentations/stuff/frame_0001.png".
Proof. reflexivity. Qed.

Example getitem_negative : getitem ["a"; "b"; "c"] (-1) = Some "c".
Proof. reflexivity. Qed.

Example aabb_of_sample :
  ∃ M, _get_aabb_and_transform
         {| get_absolute_path := λ p, p;
            files := {[ "/d/threejs.json" :=
                          JsonFile (JThree
                            {| children := [ {| matrix := [1; 0; 0; 0; 0; 1; 0; 0; 0; 0; 1; 0; 0; 0; 0; 1] |};
                                             {| matrix := [1; 0; 0; 0; 0; 1; 0; 0; 0; 0; 1; 0; 1; 1; 1; 1] |} ];
                               geometries := geometries Sample.three |}) ]} |}
         (of_str "/d") [] =
       (Ok ([# [# 0; - 1; Qc_of_Z (-2)]; [# Qc_of_Z 2; Qc_of_Z 3; Qc_of_Z 4]], M),
        ["/d/threejs.json"]).
Proof. eexists. vm_compute. reflexivity. Qed.

(** ** When a descriptor is returned *)



(** ** The files opened during construction *)

(** X2: whatever the outcome, [_generate_dataset_inputs] opens cameras.json
    first and after it at most panoptic_classes.json, the latter only with
    semantics enabled; no label image and no threejs.json is opened. *)
Theorem construction_opens_json_only self w split log :
  snd (_generate_dataset_inputs self w split log) =
    log ++ [str (cameras_path self w)] ∨
  (include_semantics (config self) = true ∧
   snd (_generate_dataset_inputs self w split log) =
     log ++ [str (cameras_path self w); str (panoptic_path self w)]).
Proof.
  destruct (files w !! str (cameras_path self w)) as [[[cj|p|t]|img]|] eqn:Hfile;
    try (left; destruct (generate_no_cameras self w split log) as (e & -> & _);
         [intros cj'; rewrite Hfile; discriminate | done]).
  destruct (frames cj) as [|f0 rest] eqn:Hfr.
  { left. by rewrite (generate_no_frames _ _ _ _ cj). }
  rewrite (generate_unfold _ _ _ _ cj f0 rest) by done.
  unfold bind, semantics_block, load_from_json, open, bind, assert, ret, raise.
  destruct (include_semantics (config self)).
  - right. split; [done|]. rewrite <- app_assoc. simpl.
    destruct (files w !! str (panoptic_path self w)) as [[[c|p|t]|img]|];
      simpl; try done.
    by destruct (all_eq (cx_of f0) (map cx_of (frames cj))),
                (all_eq (cy_of f0) (map cy_of (frames cj))).
  - left.
    by destruct (all_eq (cx_of f0) (map cx_of (frames cj))),
                (all_eq (cy_of f0) (map cy_of (frames cj))).
Qed.

(** X3: the outcome depends on the file system through cameras.json and,
    with semantics enabled, panoptic_classes.json only: two file systems
    that agree on these give the same run. *)
Theorem depends_on_two_files_only self w1 w2 split log :
  get_absolute_path w1 = get_absolute_path w2 →
  files w1 !! str (cameras_path self w1) =
    files w2 !! str (cameras_path self w2) →
  (include_semantics (config self) = true →
   files w1 !! str (panoptic_path self w1) =
     files w2 !! str (panoptic_path self w2)) →
  _generate_dataset_inputs self w1 split log =
  _generate_dataset_inputs self w2 split log.
Proof.
  intros Habs Hcam Hpan.
  assert (abs_dir_of self w1 = abs_dir_of self w2) as Hdir
    by (unfold abs_dir_of; by rewrite Habs).
  assert (cameras_path self w1 = cameras_path self w2) as Hcp
    by (unfold cameras_path; by rewrite Hdir).
  assert (panoptic_path self w1 = panoptic_path self w2) as Hpp
    by (unfold panoptic_path; by rewrite Hdir).
  unfold _generate_dataset_inputs.
  cbv beta delta
    [bind load_from_json open ret raise as_cameras as_panoptic stack
     or_raise assert].
  fold (abs_dir_of self w1). fold (abs_dir_of self w2).
  fold (cameras_path self w1). fold (cameras_path self w2).
  fold (panoptic_path self w1). fold (panoptic_path self w2).
  rewrite Hcam, Hdir, Hcp, Hpp.
  destruct (include_semantics (config self)); [|done].
  rewrite Hpp in Hpan. by rewrite Hpan.
Qed.

Lemma depends_on_two_files_only_witness :
  files Sample.world_with_labels ≠ files Fixture.world_with_notes ∧
  _generate_dataset_inputs (Sample.parser true) Sample.world_with_labels
    "train" [] =
  _generate_dataset_inputs (Sample.parser true) Fixture.world_with_notes
    "train" [].
Proof.
  split.
  - intros H.
    assert (files Sample.world_with_labels !! "/d/notes.json" =
            files Fixture.world_with_notes !! "/d/notes.json") as H'
      by (by rewrite H).
    vm_compute in H'. discriminate.
  - apply (depends_on_two_files_only (Sample.parser true)
             Sample.world_with_labels Fixture.world_with_notes "train" []).
    + reflexivity.
    + vm_compute. reflexivity.
    + intros _. vm_compute. reflexivity.
Defined.

(** ** The shared principal point *)



(** ** Geometry of the rotation *)

Lemma dot_rot_x (u v : vec Qc 3) : dot (rot_x u) (rot_x v) = dot u v.
Proof.
  inv_vec u. intros u0 u1 u2. inv_vec v. intros v0 v1 v2.
  unfold dot, rot_x. simpl. ring.
Qed.

Lemma vsub_rot_x (u v : vec Qc 3) :
  vsub (rot_x u) (rot_x v) = rot_x (vsub u v).
Proof.
  inv_vec u. intros u0 u1 u2. inv_vec v. intros v0 v1 v2.
  unfold vsub, rot_x. simpl. f_equal. f_equal. ring.
Qed.

(** X5: the rotation is an isometry: in a returned descriptor the columns of
    every camera-to-world block have the inner products they had in
    cameras.json, and the diagonal of the bounding box has kept its squared
    length. *)
Theorem rotation_preserves_inner_products self w split log d log' cj :
  files w !! str (cameras_path self w) = Some (JsonFile (JCameras cj)) →
  _generate_dataset_inputs self w split log = (Ok d, log') →
  (∀ i frame M,
     frames cj !! i = Some frame →
     camera_to_worlds (cameras d) !! i = Some M →
     ∀ j k : fin 4,
       dot (column M j) (column M k) =
       dot (column (top_rows frame) j) (column (top_rows frame) k)) ∧
  dot (vsub (aabb (scene_bounds d) !!! 1%fin) (aabb (scene_bounds d) !!! 0%fin))
      (vsub (aabb (scene_bounds d) !!! 1%fin) (aabb (scene_bounds d) !!! 0%fin)) =
  dot (vsub (bbox cj !!! 1%fin) (bbox cj !!! 0%fin))
      (vsub (bbox cj !!! 1%fin) (bbox cj !!! 0%fin)).
Proof.
  intros Hfile Hrun.
  apply generate_Ok_inv in Hrun
    as (cj' & f0 & rest & sem & Hfile' & _ & _ & _ & _ & ->).
  assert (cj' = cj) as -> by congruence.
  unfold descriptor_of. cbn [cameras camera_to_worlds scene_bounds aabb].
  split.
  - intros i frame M Hi HM j k.
    rewrite lookup_map, Hi in HM.
    cbn [fmap option_fmap option_map] in HM.
    assert (M = matmul rotation (top_rows frame)) as -> by congruence.
    by rewrite !column_matmul_rotation, dot_rot_x.
  - by rewrite rotate_bbox, !vlookup_map, vsub_rot_x, dot_rot_x.
Qed.

Lemma rotation_preserves_inner_products_witness :
  ∃ d, fst (_generate_dataset_inputs (Sample.parser false)
              (Sample.world_of Sample.two_frames) "train" []) = Ok d ∧
       dot (vsub (aabb (scene_bounds d) !!! 1%fin)
                 (aabb (scene_bounds d) !!! 0%fin))
           (vsub (aabb (scene_bounds d) !!! 1%fin)
                 (aabb (scene_bounds d) !!! 0%fin)) = Qc_of_Z 56.
Proof.
  destruct (_generate_dataset_inputs (Sample.parser false)
              (Sample.world_of Sample.two_frames) "train" [])
    as [[d|e] log'] eqn:Hrun; [|by vm_compute in Hrun].
  exists d. split; [done|].
  destruct (rotation_preserves_inner_products (Sample.parser false)
              (Sample.world_of Sample.two_frames) "train" [] d log'
              Sample.two_frames) as [_ ->]; [done | done |].
  vm_compute. reflexivity.
Defined.

(** X6: the rows of the returned box are not ordered as a lower and an upper
    corner: when the first corner of the box of cameras.json lies below the
    second in z, the first row of the returned box lies above the second in
    y, while x is kept and the new z is the old y. *)
Theorem rotated_box_rows_reversed_in_y self w split log d log' cj :
  files w !! str (cameras_path self w) = Some (JsonFile (JCameras cj)) →
  _generate_dataset_inputs self w split log = (Ok d, log') →
  (bbox cj !!! 0%fin) !!! 2%fin < (bbox cj !!! 1%fin) !!! 2%fin →
  (aabb (scene_bounds d) !!! 1%fin) !!! 1%fin <
    (aabb (scene_bounds d) !!! 0%fin) !!! 1%fin ∧
  ∀ k : fin 2,
    (aabb (scene_bounds d) !!! k) !!! 0%fin = (bbox cj !!! k) !!! 0%fin ∧
    (aabb (scene_bounds d) !!! k) !!! 2%fin = (bbox cj !!! k) !!! 1%fin.
Proof.
  intros Hfile Hrun Hz.
  apply generate_Ok_inv in Hrun
    as (cj' & f0 & rest & sem & Hfile' & _ & _ & _ & _ & ->).
  assert (cj' = cj) as -> by congruence.
  unfold descriptor_of. cbn [scene_bounds aabb].
  rewrite rotate_bbox. split.
  - rewrite !vlookup_map. unfold rot_x. simpl.
    apply Qclt_minus_iff. apply Qclt_minus_iff in Hz.
    by replace (- ((bbox cj !!! 0%fin) !!! 2%fin) +
                - - ((bbox cj !!! 1%fin) !!! 2%fin))
      with ((bbox cj !!! 1%fin) !!! 2%fin + - ((bbox cj !!! 0%fin) !!! 2%fin))
      by ring.
  - intros k. by rewrite vlookup_map.
Qed.

Lemma rotated_box_rows_reversed_in_y_witness :
  ∃ d, fst (_generate_dataset_inputs (Sample.parser false)
              (Sample.world_of Sample.two_frames) "train" []) = Ok d ∧
       (aabb (scene_bounds d) !!! 1%fin) !!! 1%fin <
         (aabb (scene_bounds d) !!! 0%fin) !!! 1%fin.
Proof.
  destruct (_generate_dataset_inputs (Sample.parser false)
              (Sample.world_of Sample.two_frames) "train" [])
    as [[d|e] log'] eqn:Hrun; [|by vm_compute in Hrun].
  exists d. split; [done|].
  apply (rotated_box_rows_reversed_in_y (Sample.parser false)
           (Sample.world_of Sample.two_frames) "train" [] d log'
           Sample.two_frames); [done | done |].
  vm_compute. reflexivity.
Defined.

(** ** Image paths *)

Lemma of_str_images : of_str "images" = mkPath "" ["images"].
Proof. reflexivity. Qed.

Lemma splitroot_relative c s :
  c ≠ "/"%char → splitroot (String c s) = ("", String c s).
Proof.
  intros Hc. destruct c as [b0 b1 b2 b3 b4 b5 b6 b7].
  destruct b0, b1, b2, b3, b4, b5, b6, b7; try reflexivity. by destruct Hc.
Qed.

Lemma root_of_str_relative s :
  String.prefix "/" s = false → root (of_str s) = "".
Proof.
  destruct s as [|c s]; [done|]. cbn [String.prefix].
  destruct (Ascii.ascii_dec "/" c) as [<-|Hc]; [by destruct s|].
  intros _. unfold of_str. by rewrite splitroot_relative.
Qed.

Lemma root_of_str_absolute s :
  String.prefix "/" s = true → root (of_str s) ≠ "".
Proof.
  destruct s as [|c s]; [done|]. cbn [String.prefix].
  destruct (Ascii.ascii_dec "/" c) as [<-|Hc]; [|done].
  intros _. unfold of_str, splitroot. by destruct (decide _).
Qed.

(** X7: the image path of a frame whose file name does not start with "/"
    is the data directory extended by "images" and the components of the
    name; a file name that starts with "/" is taken as it is and the data
    directory is dropped. *)
Theorem image_path_relative_or_absolute self w split log d log' cj i frame :
  files w !! str (cameras_path self w) = Some (JsonFile (JCameras cj)) →
  _generate_dataset_inputs self w split log = (Ok d, log') →
  frames cj !! i = Some frame →
  (String.prefix "/" (image_name frame) = false →
   image_filenames d !! i =
     Some (mkPath (root (abs_dir_of self w))
                  (parts (abs_dir_of self w) ++
                   "images" :: parts (of_str (image_name frame))))) ∧
  (String.prefix "/" (image_name frame) = true →
   image_filenames d !! i = Some (of_str (image_name frame))).
Proof.
  intros Hfile Hrun Hi.
  apply generate_Ok_inv in Hrun
    as (cj' & f0 & rest & sem & Hfile' & _ & _ & _ & _ & ->).
  assert (cj' = cj) as -> by congruence.
  unfold descriptor_of. cbn [image_filenames].
  rewrite lookup_map, Hi. cbn [fmap option_fmap option_map].
  unfold image_path, joinpath. rewrite of_str_images.
  cbn [root parts].
  split; intros Hname.
  - rewrite (root_of_str_relative _ Hname). by rewrite <- app_assoc.
  - pose proof (root_of_str_absolute _ Hname) as Hroot.
    by destruct (root (of_str (image_name frame))).
Qed.

Lemma image_path_relative_or_absolute_witness :
  ∃ d, fst (_generate_dataset_inputs (Sample.parser false)
              (Sample.world_of Fixture.absolute_name) "train" []) = Ok d ∧
       str <$> image_filenames d !! 0%nat = Some "/d/images/a.jpg" ∧
       str <$> image_filenames d !! 1%nat = Some "/mnt/shots/b.jpg".
Proof.
  destruct (_generate_dataset_inputs (Sample.parser false)
              (Sample.world_of Fixture.absolute_name) "train" [])
    as [[d|e] log'] eqn:Hrun; [|by vm_compute in Hrun].
  exists d. split; [done|]. split.
  - destruct (image_path_relative_or_absolute (Sample.parser false)
                (Sample.world_of Fixture.absolute_name) "train" [] d log'
                Fixture.absolute_name 0%nat (Sample.frame "a.jpg" 320 0 0))
      as [-> _]; done.
  - destruct (image_path_relative_or_absolute (Sample.parser false)
                (Sample.world_of Fixture.absolute_name) "train" [] d log'
                Fixture.absolute_name 1%nat
                (Sample.frame "/mnt/shots/b.jpg" 320 0 0))
      as [_ ->]; done.
Defined.

(** ** The taxonomy *)







(** ** Missing files *)

(** X9: without cameras.json the run raises [FileNotFoundError] for that
    path, which is the only file it tried to open. *)
Theorem missing_cameras_json self w split log :
  files w !! str (cameras_path self w) = None →
  _generate_dataset_inputs self w split log =
  (Raise (FileNotFoundError (str (cameras_path self w))),
   log ++ [str (cameras_path self w)]).
Proof.
  intros Hfile. unfold _generate_dataset_inputs.
  cbv beta delta [bind load_from_json open].
  fold (abs_dir_of self w). fold (cameras_path self w).
  by rewrite Hfile.
Qed.

Lemma missing_cameras_json_witness :
  _generate_dataset_inputs (Sample.parser true) Fixture.no_files "train" [] =
  (Raise (FileNotFoundError "/d/cameras.json"), ["/d/cameras.json"]).
Proof.
  apply (missing_cameras_json (Sample.parser true) Fixture.no_files "train" []).
  vm_compute. reflexivity.
Defined.

(** X10: with semantics enabled, at least one frame and no
    panoptic_classes.json, the run raises [FileNotFoundError] for the
    taxonomy, after opening cameras.json and trying the taxonomy; the cx and
    cy of the frames play no part, the taxonomy being loaded before they are
    compared. *)
Theorem missing_taxonomy_precedes_check self w split log cj :
  include_semantics (config self) = true →
  files w !! str (cameras_path self w) = Some (JsonFile (JCameras cj)) →
  frames cj ≠ [] →
  files w !! str (panoptic_path self w) = None →
  _generate_dataset_inputs self w split log =
  (Raise (FileNotFoundError (str (panoptic_path self w))),
   log ++ [str (cameras_path self w); str (panoptic_path self w)]).
Proof.
  intros Hsem Hfile Hne Hpan.
  destruct (frames cj) as [|f0 rest] eqn:Hfr; [done|].
  rewrite (generate_unfold _ _ _ _ cj f0 rest) by done.
  unfold bind, semantics_block, load_from_json, open, bind.
  rewrite Hsem, Hpan. by rewrite <- app_assoc.
Qed.

Lemma missing_taxonomy_precedes_check_witness :
  _generate_dataset_inputs (Sample.parser true)
    (Sample.world_of Sample.mixed_cx) "train" [] =
  (Raise (FileNotFoundError "/d/panoptic_classes.json"),
   ["/d/cameras.json"; "/d/panoptic_classes.json"]).
Proof.
  apply (missing_taxonomy_precedes_check (Sample.parser true)
           (Sample.world_of Sample.mixed_cx) "train" [] Sample.mixed_cx).
  - reflexivity.
  - vm_compute. reflexivity.
  - discriminate.
  - vm_compute. reflexivity.
Defined.

(** ** The loader: preconditions *)

Lemma index_None x l : index x l = None ↔ x ∉ l.
Proof.
  induction l as [|y l IH]; simpl.
  - split; [intros _; apply not_elem_of_nil | done].
  - rewrite not_elem_of_cons. destruct (decide (x = y)) as [->|Hne].
    + split; [done | by intros [? _]].
    + destruct (index x l); simpl.
      * split; [done|]. intros [_ H]. by apply IH in H.
      * split; [|done]. intros _. split; [done | by apply IH].
Qed.

Lemma index_Some x l : x ∈ l → ∃ k, index x l = Some k.
Proof.
  intros Hin. destruct (index x l) as [k|] eqn:H; [by exists k|].
  by apply index_None in H.
Qed.

Lemma getitem_None {A} (l : list A) (i : Z) :
  getitem l i = None ↔ (i < - Z.of_nat (length l) ∨ Z.of_nat (length l) <= i)%Z.
Proof.
  unfold getitem. destruct (decide (0 ≤ i)%Z).
  - rewrite lookup_ge_None. lia.
  - destruct (decide (- Z.of_nat (length l) ≤ i)%Z).
    + rewrite lookup_ge_None. lia.
    + split; [lia | done].
Qed.

Lemma getitem_negative_eq {A} (l : list A) (k : Z) :
  (0 <= k < Z.of_nat (length l))%Z →
  getitem l (k - Z.of_nat (length l)) = getitem l k.
Proof.
  intros Hk. unfold getitem.
  destruct (decide (0 ≤ k - Z.of_nat (length l))%Z); [lia|].
  destruct (decide (- Z.of_nat (length l) ≤ k - Z.of_nat (length l))%Z); [|lia].
  destruct (decide (0 ≤ k)%Z); [|lia].
  f_equal. lia.
Qed.

(** X11: when "person" is not among the thing classes, the loader raises
    [ValueError] for every index, before it opens any file. *)
Theorem loader_requires_person_class w i s log :
  "person" ∉ thing_classes s →
  get_semantics_and_masks w i (Some s) log =
  (Raise (ValueError "'person' is not in list"), log).
Proof.
  intros H%index_None. unfold get_semantics_and_masks, bind, or_raise.
  simpl. by rewrite H.
Qed.

Lemma loader_requires_person_class_witness :
  get_semantics_and_masks Sample.world_with_labels 0
    (Some Fixture.sem_without_person) [] =
  (Raise (ValueError "'person' is not in list"), []).
Proof.
  apply (loader_requires_person_class Sample.world_with_labels 0
           Fixture.sem_without_person []).
  apply index_None. reflexivity.
Defined.

(** X12: with "person" among the thing classes, an index below minus the
    number of thing files, or not below that number, makes the loader raise
    [IndexError] before it opens any file. *)
Theorem loader_index_out_of_range w i s log :
  "person" ∈ thing_classes s →
  (i < - Z.of_nat (length (thing_filenames s)) ∨
   Z.of_nat (length (thing_filenames s)) <= i)%Z →
  get_semantics_and_masks w i (Some s) log = (Raise IndexError, log).
Proof.
  intros [k Hk]%index_Some Hi%getitem_None.
  unfold get_semantics_and_masks, bind, or_raise. simpl.
  by rewrite Hk, Hi.
Qed.

Lemma loader_index_out_of_range_witness :
  get_semantics_and_masks Sample.world_with_labels 2 (Some Fixture.sem) [] =
    (Raise IndexError, []) ∧
  get_semantics_and_masks Sample.world_with_labels (-3) (Some Fixture.sem) [] =
    (Raise IndexError, []).
Proof.
  split.
  - apply (loader_index_out_of_range Sample.world_with_labels 2
             Fixture.sem []).
    + apply list_elem_of_In. simpl. tauto.
    + right. simpl. lia.
  - apply (loader_index_out_of_range Sample.world_with_labels (-3)
             Fixture.sem []).
    + apply list_elem_of_In. simpl. tauto.
    + left. simpl. lia.
Defined.

Lemma loader_index_ext w i j s log :
  getitem (thing_filenames s) i = getitem (thing_filenames s) j →
  getitem (stuff_filenames s) i = getitem (stuff_filenames s) j →
  get_semantics_and_masks w i (Some s) log =
  get_semantics_and_masks w j (Some s) log.
Proof.
  intros Ht Hs.
  unfold get_semantics_and_masks, bind, or_raise, Image_open, open, bind,
    ret, raise. simpl.
  destruct (index "person" (thing_classes s)) as [pi|]; [|done]. simpl.
  rewrite Ht. destruct (getitem (thing_filenames s) j) as [tf|]; [|done].
  simpl. destruct (files w !! str tf) as [[js|timg]|]; simpl; try done.
  by rewrite Hs.
Qed.

(** X13: a negative index counts from the end: with as many stuff files as
    thing files, N of each, the loader called with k - N, for k from 0 to
    N - 1, does what it does with k. *)
Theorem loader_negative_index w k s log :
  length (stuff_filenames s) = length (thing_filenames s) →
  (0 <= k < Z.of_nat (length (thing_filenames s)))%Z →
  get_semantics_and_masks w (k - Z.of_nat (length (thing_filenames s)))
    (Some s) log =
  get_semantics_and_masks w k (Some s) log.
Proof.
  intros Hlen Hk.
  apply loader_index_ext.
  - by apply getitem_negative_eq.
  - rewrite <- Hlen. apply getitem_negative_eq. lia.
Qed.

Lemma loader_negative_index_witness :
  ∃ out,
    get_semantics_and_masks Fixture.world_last_labels (-1)
      (Some Fixture.sem) [] =
    (Ok out, ["/d/segmentations/thing/b.png";
              "/d/segmentations/stuff/b.png"]).
Proof.
  pose proof (loader_negative_index Fixture.world_last_labels 1
                Fixture.sem [] eq_refl) as H.
  change (1 - Z.of_nat (length (thing_filenames Fixture.sem)))%Z
    with (-1)%Z in H.
  rewrite H; [|simpl; lia].
  eexists. vm_compute. reflexivity.
Defined.

(** ** The loader: files *)

(** X14: the loader opens the thing image of the index first and the stuff
    image second, and nothing else; the stuff image is opened only once the
    thing image has been read, and a missing thing image raises
    [FileNotFoundError] for its path. *)
Theorem loader_opens_thing_then_stuff w i sem log :
  snd (get_semantics_and_masks w i sem log) = log ∨
  ∃ s tf,
    sem = Some s ∧ getitem (thing_filenames s) i = Some tf ∧
    ((snd (get_semantics_and_masks w i sem log) = log ++ [str tf] ∧
      (files w !! str tf = None →
       fst (get_semantics_and_masks w i sem log) =
       Raise (FileNotFoundError (str tf)))) ∨
     (∃ sf timg,
        getitem (stuff_filenames s) i = Some sf ∧
        files w !! str tf = Some (ImageFile timg) ∧
        snd (get_semantics_and_masks w i sem log) =
          log ++ [str tf; str sf])).
Proof.
  unfold get_semantics_and_masks, bind, or_raise, Image_open, open, bind,
    ret, raise.
  destruct sem as [s|]; [|by left]. simpl.
  destruct (index "person" (thing_classes s)) as [pi|]; [|by left]. simpl.
  destruct (getitem (thing_filenames s) i) as [tf|] eqn:Htf; [|by left].
  right. exists s, tf. split; [done|]. split; [done|]. simpl.
  destruct (files w !! str tf) as [[j|timg]|] eqn:Hti; simpl.
  - left. by split.
  - destruct (getitem (stuff_filenames s) i) as [sf|] eqn:Hsf; simpl.
    + right. exists sf, timg. split; [done|]. split; [done|].
      rewrite <- app_assoc.
      by destruct (files w !! str sf) as [[j|simg]|].
    + left. by split.
  - left. by split.
Qed.

(** ** The loader on a returned descriptor *)

(** X15: with semantics enabled and "person" among the thing classes of the
    taxonomy, the loader bound in a returned descriptor, called with the
    position of a frame, opens the thing and stuff images at the paths
    derived from that frame's image path, in this order, and, when both are
    there, returns the mask and the labels of these two images. *)
Theorem bound_loader_succeeds self w split log d log' cj p i frame
    w' timg simg log1 :
  include_semantics (config self) = true →
  files w !! str (cameras_path self w) = Some (JsonFile (JCameras cj)) →
  files w !! str (panoptic_path self w) = Some (JsonFile (JPanoptic p)) →
  _generate_dataset_inputs self w split log = (Ok d, log') →
  "person" ∈ thing p →
  frames cj !! i = Some frame →
  files w' !! str (segmentation_filename "/segmentations/thing/"
                     (image_path (abs_dir_of self w) frame)) =
    Some (ImageFile timg) →
  files w' !! str (segmentation_filename "/segmentations/stuff/"
                     (image_path (abs_dir_of self w) frame)) =
    Some (ImageFile simg) →
  ∃ ai person_index,
    additional_inputs d !! "semantics" = Some ai ∧
    index "person" (thing p) = Some person_index ∧
    call (func ai) w' (Z.of_nat i) (kwargs ai) log1 =
    (Ok (<["mask" := FloatTensor (ne_mask (Z.of_nat person_index)
                                    (unsqueeze_last timg))]>
         (<["semantics" := IntTensor (unsqueeze_last simg)]> ∅)),
     log1 ++ [str (segmentation_filename "/segmentations/thing/"
                     (image_path (abs_dir_of self w) frame));
              str (segmentation_filename "/segmentations/stuff/"
                     (image_path (abs_dir_of self w) frame))]).
Proof.
  intros Hsem Hfile Hp Hrun [pi Hpi]%index_Some Hi Hti Hsi.
  apply generate_Ok_inv in Hrun
    as (cj' & f0 & rest & sem & Hfile' & _ & Hblock & _ & _ & ->).
  assert (cj' = cj) as -> by congruence.
  apply semantics_block_Ok_inv in Hblock
    as [[Hoff _]|[_ (p' & Hp' & -> & _)]]; [congruence|].
  assert (p' = p) as -> by congruence.
  eexists _, pi. split; [apply descriptor_binding|]. split; [done|].
  cbn [func kwargs call].
  unfold bind at 1. rewrite lookup_singleton_eq. cbn [or_raise ret].
  unfold get_semantics_and_masks, bind, or_raise, Image_open, open, bind,
    ret, raise.
  unfold semantics_of. cbn [thing_classes thing_filenames stuff_filenames].
  rewrite Hpi. cbn beta iota.
  assert (∀ kind,
            getitem (map (segmentation_filename kind)
                       (map (image_path (abs_dir_of self w)) (frames cj)))
                    (Z.of_nat i) =
            Some (segmentation_filename kind
                    (image_path (abs_dir_of self w) frame))) as Hget.
  { intros kind. unfold getitem.
    destruct (decide (0 ≤ Z.of_nat i)%Z); [|lia].
    by rewrite Nat2Z.id, !lookup_map, Hi. }
  rewrite !Hget. cbn beta iota. rewrite Hti. cbn beta iota.
  rewrite Hsi. cbn beta iota. by rewrite <- app_assoc.
Qed.

Lemma bound_loader_succeeds_witness :
  ∃ d ai out,
    fst (_generate_dataset_inputs (Sample.parser true)
           Sample.world_with_labels "train" []) = Ok d ∧
    additional_inputs d !! "semantics" = Some ai ∧
    call (func ai) Sample.world_with_labels 0 (kwargs ai) [] =
    (Ok out, ["/d/segmentations/thing/a.png";
              "/d/segmentations/stuff/a.png"]).
Proof.
  destruct (_generate_dataset_inputs (Sample.parser true)
              Sample.world_with_labels "train" [])
    as [[d|e] log'] eqn:Hrun; [|by vm_compute in Hrun].
  destruct (bound_loader_succeeds (Sample.parser true)
              Sample.world_with_labels "train" [] d log' Sample.two_frames
              Sample.classes 0%nat (Sample.frame "a.jpg" 320 0 0)
              Sample.world_with_labels Sample.thing_a Sample.stuff_a [])
    as (ai & pi & Hai & _ & Hcall); try done.
  { apply list_elem_of_In. simpl. tauto. }
  exists d, ai. eexists. split; [done|]. split; [done|]. exact Hcall.
Defined.

(** ** The geometry loader *)

Lemma reshape_4_4_Some l M :
  reshape_4_4 l = Some M →
  ∃ a0 a1 a2 a3 a4 a5 a6 a7 a8 a9 a10 a11 a12 a13 a14 a15,
    l = [a0; a1; a2; a3; a4; a5; a6; a7; a8; a9; a10; a11; a12; a13; a14; a15] ∧
    M = [# [# a0; a1; a2; a3]; [# a4; a5; a6; a7];
           [# a8; a9; a10; a11]; [# a12; a13; a14; a15]].
Proof.
  do 17 (destruct l as [|? l]; [discriminate || (intros [= <-]; by repeat eexists)|]).
  discriminate.
Qed.

Lemma reshape_4_4_None l : reshape_4_4 l = None ↔ length l ≠ 16%nat.
Proof.
  do 17 (destruct l as [|? l]; [simpl; split; (done || lia)|]).
  simpl. split; [lia | done].
Qed.

(** With the file, two nodes of 16 numbers, a point-cloud transform that
    ends in 1 and a second geometry, the loader returns. *)
Lemma aabb_unfold w basedir log t node0 M0 node1 M1 g :
  files w !! str (three_path basedir) = Some (JsonFile (JThree t)) →
  children t !! 0%nat = Some node0 →
  reshape_4_4 (matrix node0) = Some M0 →
  (transpose M0 !!! 3%fin) !!! 3%fin = 1 →
  children t !! 1%nat = Some node1 →
  reshape_4_4 (matrix node1) = Some M1 →
  geometries t !! 1%nat = Some g →
  _get_aabb_and_transform w basedir log =
  (Ok (box_of M1 g, transpose M0), log ++ [str (three_path basedir)]).
Proof.
  intros Hfile H0 HM0 H33 H1 HM1 Hg.
  unfold _get_aabb_and_transform, path_exists.
  cbv beta delta [bind load_from_json open ret raise as_three or_raise assert].
  cbv zeta. fold (three_path basedir). rewrite Hfile.
  rewrite bool_decide_eq_true_2 by by eexists.
  cbv beta iota. rewrite H0. cbv beta iota. rewrite HM0. cbv beta iota.
  rewrite bool_decide_eq_true_2 by done.
  cbv beta iota. rewrite H1. cbv beta iota. rewrite HM1. cbv beta iota.
  rewrite Hg. reflexivity.
Qed.

Lemma aabb_Ok_inv w basedir log box T log' :
  _get_aabb_and_transform w basedir log = (Ok (box, T), log') →
  ∃ t node0 M0 node1 M1 g,
    files w !! str (three_path basedir) = Some (JsonFile (JThree t)) ∧
    children t !! 0%nat = Some node0 ∧
    reshape_4_4 (matrix node0) = Some M0 ∧
    (transpose M0 !!! 3%fin) !!! 3%fin = 1 ∧
    children t !! 1%nat = Some node1 ∧
    reshape_4_4 (matrix node1) = Some M1 ∧
    geometries t !! 1%nat = Some g ∧
    box = box_of M1 g ∧ T = transpose M0 ∧
    log' = log ++ [str (three_path basedir)].
Proof.
  unfold _get_aabb_and_transform. fold (three_path basedir). intros H.
  apply bind_Ok_inv in H as (u & l1 & [Hex ->]%assert_Ok_inv & H).
  apply bind_Ok_inv in H as (j & l2 & Hload & H).
  apply bind_Ok_inv in H as (t & l3 & Ht & H).
  apply bind_Ok_inv in H as (node0 & l4 & [H0 ->]%or_raise_Ok_inv & H).
  apply bind_Ok_inv in H as (M0 & l5 & [HM0 ->]%or_raise_Ok_inv & H).
  apply bind_Ok_inv in H as (u2 & l6 & [H33 ->]%assert_Ok_inv & H).
  apply bind_Ok_inv in H as (node1 & l7 & [H1 ->]%or_raise_Ok_inv & H).
  apply bind_Ok_inv in H as (M1 & l8 & [HM1 ->]%or_raise_Ok_inv & H).
  apply bind_Ok_inv in H as (g & l9 & [Hg ->]%or_raise_Ok_inv & H).
  apply bool_decide_eq_true in H33.
  unfold load_from_json, open, bind in Hload.
  destruct (files w !! str (three_path basedir)) as [[j'|img]|] eqn:Hfile;
    simpl in Hload; try discriminate.
  injection Hload as -> <-.
  destruct j as [c|p|t']; simpl in Ht; try discriminate.
  injection Ht as -> <-.
  injection H as <- <- <-.
  by exists t, node0, M0, node1, M1, g.
Qed.

(** X16: without threejs.json under the base directory the loader fails on
    its first assertion and opens nothing. *)
Theorem missing_threejs_asserted w basedir log :
  files w !! str (basedir // "threejs.json") = None →
  _get_aabb_and_transform w basedir log = (Raise (AssertionError ""), log).
Proof.
  intros Hfile. unfold _get_aabb_and_transform, path_exists.
  cbv beta delta [bind assert raise]. cbv zeta. by rewrite Hfile.
Qed.

Lemma missing_threejs_asserted_witness :
  _get_aabb_and_transform Fixture.no_files (of_str "/d") [] =
  (Raise (AssertionError ""), []).
Proof.
  apply (missing_threejs_asserted Fixture.no_files (of_str "/d") []).
  vm_compute. reflexivity.
Defined.

(** X17: a point-cloud node whose matrix does not hold 16 numbers makes the
    loader raise [ValueError], after threejs.json has been opened. *)
Theorem wrong_matrix_size_raises w basedir log t node :
  files w !! str (basedir // "threejs.json") = Some (JsonFile (JThree t)) →
  children t !! 0%nat = Some node →
  length (matrix node) ≠ 16%nat →
  _get_aabb_and_transform w basedir log =
  (Raise (ValueError "cannot reshape array into shape (4,4)"),
   log ++ [str (basedir // "threejs.json")]).
Proof.
  intros Hfile Hnode Hlen%reshape_4_4_None.
  unfold _get_aabb_and_transform, path_exists.
  cbv beta delta [bind load_from_json open ret raise as_three or_raise assert].
  cbv zeta. rewrite Hfile.
  rewrite bool_decide_eq_true_2 by by eexists.
  cbv beta iota. rewrite Hnode. cbv beta iota. by rewrite Hlen.
Qed.

Lemma wrong_matrix_size_raises_witness :
  _get_aabb_and_transform (Fixture.world_three Fixture.three_short)
    (of_str "/d") [] =
  (Raise (ValueError "cannot reshape array into shape (4,4)"),
   ["/d/threejs.json"]).
Proof.
  apply (wrong_matrix_size_raises (Fixture.world_three Fixture.three_short)
           (of_str "/d") [] Fixture.three_short
           {| matrix := [Fixture.q 1; Fixture.q 0; Fixture.q 0] |}).
  - vm_compute. reflexivity.
  - reflexivity.
  - simpl. lia.
Defined.

(** X18: a transform returned by the loader has 1 as its entry [3,3], and
    its entry [i,j] is the number at position 4 j + i of the matrix of the
    first child: the flat list is read column by column.  The run has
    opened threejs.json and nothing else. *)
Theorem returned_transform_is_column_major w basedir log box T log' :
  _get_aabb_and_transform w basedir log = (Ok (box, T), log') →
  (T !!! 3%fin) !!! 3%fin = 1 ∧
  log' = log ++ [str (basedir // "threejs.json")] ∧
  ∃ t node,
    files w !! str (basedir // "threejs.json") = Some (JsonFile (JThree t)) ∧
    children t !! 0%nat = Some node ∧
    ∀ i j : fin 4,
      matrix node !! (4 * fin_to_nat j + fin_to_nat i)%nat =
      Some ((T !!! i) !!! j).
Proof.
  intros (t & node0 & M0 & node1 & M1 & g & Hfile & H0 & HM0 & H33 & _ & _
          & _ & _ & -> & ->)%aabb_Ok_inv.
  split; [done|]. split; [done|].
  exists t, node0. split; [done|]. split; [done|].
  apply reshape_4_4_Some in HM0
    as (a0 & a1 & a2 & a3 & a4 & a5 & a6 & a7 & a8 & a9 & a10 & a11 & a12
        & a13 & a14 & a15 & -> & ->).
  intros i j.
  repeat (inv_fin i; [|intros i]); try (inv_fin i);
    repeat (inv_fin j; [|intros j]); try (inv_fin j); reflexivity.
Qed.

Lemma returned_transform_is_column_major_witness :
  ∃ box T,
    _get_aabb_and_transform (Fixture.world_three (Fixture.three 0))
      (of_str "/d") [] = (Ok (box, T), ["/d/threejs.json"]) ∧
    (T !!! 3%fin) !!! 3%fin = 1.
Proof.
  destruct (_get_aabb_and_transform (Fixture.world_three (Fixture.three 0))
              (of_str "/d") []) as [[[box T]|e] log'] eqn:Hrun;
    [|by vm_compute in Hrun].
  destruct (returned_transform_is_column_major
              (Fixture.world_three (Fixture.three 0)) (of_str "/d") []
              box T log' Hrun) as (H33 & -> & _).
  by exists box, T.
Defined.



(** X20: the numbers at positions 3, 7, 11 and 15 of the matrix of the
    second child, the bottom row of the box transform, are neither checked
    nor used: changing them does not change the outcome of the loader. *)
Theorem box_bottom_row_unused w1 w2 basedir log t1 t2 n1 n2 a b c e :
  files w1 !! str (basedir // "threejs.json") = Some (JsonFile (JThree t1)) →
  files w2 !! str (basedir // "threejs.json") = Some (JsonFile (JThree t2)) →
  children t1 !! 0%nat = children t2 !! 0%nat →
  children t1 !! 1%nat = Some n1 →
  children t2 !! 1%nat = Some n2 →
  geometries t1 !! 1%nat = geometries t2 !! 1%nat →
  matrix n2 = <[3%nat := a]> (<[7%nat := b]> (<[11%nat := c]>
                (<[15%nat := e]> (matrix n1)))) →
  _get_aabb_and_transform w1 basedir log =
  _get_aabb_and_transform w2 basedir log.
Proof.
  intros Hf1 Hf2 H0 H1 H2 Hg Hm.
  unfold _get_aabb_and_transform, path_exists.
  cbv beta delta [bind load_from_json open ret raise as_three or_raise assert].
  cbv zeta. rewrite Hf1, Hf2.
  rewrite !bool_decide_eq_true_2 by by eexists.
  cbv beta iota. rewrite H0.
  destruct (children t2 !! 0%nat) as [node0|]; [|done]. cbv beta iota.
  destruct (reshape_4_4 (matrix node0)) as [M0|]; [|done]. cbv beta iota.
  destruct (bool_decide _); [|done]. cbv beta iota.
  rewrite H1, H2. cbv beta iota. rewrite Hm, Hg.
  destruct (reshape_4_4 (matrix n1)) as [M1|] eqn:HM1.
  - apply reshape_4_4_Some in HM1
      as (a0 & a1 & a2 & a3 & a4 & a5 & a6 & a7 & a8 & a9 & a10 & a11 & a12
          & a13 & a14 & a15 & -> & ->).
    cbn [list_insert insert reshape_4_4]. cbv beta iota.
    by destruct (geometries t2 !! 1%nat).
  - apply reshape_4_4_None in HM1.
    assert (reshape_4_4 (<[3%nat := a]> (<[7%nat := b]> (<[11%nat := c]>
              (<[15%nat := e]> (matrix n1))))) = None) as ->.
    { apply reshape_4_4_None. by rewrite !length_insert. }
    done.
Qed.

Lemma box_bottom_row_unused_witness :
  Fixture.three 0 ≠ Fixture.three 9 ∧
  _get_aabb_and_transform (Fixture.world_three (Fixture.three 0))
    (of_str "/d") [] =
  _get_aabb_and_transform (Fixture.world_three (Fixture.three 9))
    (of_str "/d") [].
Proof.
  split; [by intros [=]|].
  apply (box_bottom_row_unused (Fixture.world_three (Fixture.three 0))
           (Fixture.world_three (Fixture.three 9)) (of_str "/d") []
           (Fixture.three 0) (Fixture.three 9)
           {| matrix := Fixture.box_flat 0 |} {| matrix := Fixture.box_flat 9 |}
           (Fixture.q 9) (Fixture.q 9) (Fixture.q 9) (Fixture.q 9)).
  - vm_compute. reflexivity.
  - vm_compute. reflexivity.
  - reflexivity.
  - reflexivity.
  - reflexivity.
  - reflexivity.
  - reflexivity.
Defined.
